(** * SNTKernelCommon.h: the kernel <-> userspace wire contract of Santa

    A shallow embedding of [Source/common/SNTKernelCommon.h]: the method
    ordinals of the user client, the action tags, the
    [CHECKBW_RESPONSE_VALID] macro, the [santa_message_t] record and its
    object representation, and, modelled from the spec, the codec and the
    response dispatch that the header leaves to the driver and the daemon. *)

From Stdlib Require Import ZArith Lia.
From Stdlib Require Strings.Byte.
From stdpp Require Import base gmap list.

Open Scope Z_scope.

(* ------------------------------------------------------------------ *)
(** ** Constants *)

(** [#define MAX_VNODE_ID_STR 21] *)
Definition MAX_VNODE_ID_STR : Z := 21.

(** [UINT64_MAX] *)
Definition UINT64_MAX : Z := 2 ^ 64 - 1.

(** [MAXPATHLEN] from [<sys/param.h>] (Darwin: [PATH_MAX] = 1024). *)
Definition MAXPATHLEN : nat := 1024.

(* ------------------------------------------------------------------ *)
(** ** [enum SantaDriverMethods]

    The enumerators carry no initialisers, so C numbers them by their
    position in the declaration, starting at 0. *)

Inductive SantaDriverMethods :=
| kSantaUserClientOpen
| kSantaUserClientAllowBinary
| kSantaUserClientDenyBinary
| kSantaUserClientClearCache
| kSantaUserClientCacheCount
| kSantaUserClientNMethods.

#[global] Instance SantaDriverMethods_eq_dec : EqDecision SantaDriverMethods.
Proof. solve_decision. Defined.

(** The enumerators in declaration order. *)
Definition SantaDriverMethods_decl : list SantaDriverMethods :=
  [kSantaUserClientOpen; kSantaUserClientAllowBinary;
   kSantaUserClientDenyBinary; kSantaUserClientClearCache;
   kSantaUserClientCacheCount; kSantaUserClientNMethods].

(** Position of an enumerator in a declaration list. *)
Fixpoint enum_index {A} `{EqDecision A} (decl : list A) (e : A) : Z :=
  match decl with
  | [] => 0
  | d :: ds => if decide (d = e) then 0 else 1 + enum_index ds e
  end.

(** C's implicit numbering: each enumerator without an initialiser is
    its predecessor plus one, the first one is 0. *)
Definition SantaDriverMethods_value (e : SantaDriverMethods) : Z :=
  enum_index SantaDriverMethods_decl e.

(** The control operations: the enumerators declared above the
    [kSantaUserClientNMethods] line. *)
Definition control_operations : list SantaDriverMethods :=
  filter (fun e => e <> kSantaUserClientNMethods) SantaDriverMethods_decl.

(* ------------------------------------------------------------------ *)
(** ** [santa_action_t] *)

Inductive santa_action_t :=
| ACTION_UNSET
| ACTION_REQUEST_CHECKBW
| ACTION_RESPOND_CHECKBW_ALLOW
| ACTION_RESPOND_CHECKBW_DENY
| ACTION_NOTIFY_EXEC
| ACTION_NOTIFY_WRITE
| ACTION_NOTIFY_RENAME
| ACTION_NOTIFY_LINK
| ACTION_NOTIFY_EXCHANGE
| ACTION_NOTIFY_DELETE
| ACTION_REQUEST_SHUTDOWN
| ACTION_ERROR.

#[global] Instance santa_action_t_eq_dec : EqDecision santa_action_t.
Proof. solve_decision. Defined.

(** The explicit initialisers of the enumerators. *)
Definition santa_action_value (a : santa_action_t) : Z :=
  match a with
  | ACTION_UNSET => 0
  | ACTION_REQUEST_CHECKBW => 10
  | ACTION_RESPOND_CHECKBW_ALLOW => 11
  | ACTION_RESPOND_CHECKBW_DENY => 12
  | ACTION_NOTIFY_EXEC => 20
  | ACTION_NOTIFY_WRITE => 21
  | ACTION_NOTIFY_RENAME => 22
  | ACTION_NOTIFY_LINK => 23
  | ACTION_NOTIFY_EXCHANGE => 24
  | ACTION_NOTIFY_DELETE => 25
  | ACTION_REQUEST_SHUTDOWN => 90
  | ACTION_ERROR => 99
  end.

(** All twelve enumerators. *)
Definition santa_action_all : list santa_action_t :=
  [ACTION_UNSET; ACTION_REQUEST_CHECKBW; ACTION_RESPOND_CHECKBW_ALLOW;
   ACTION_RESPOND_CHECKBW_DENY; ACTION_NOTIFY_EXEC; ACTION_NOTIFY_WRITE;
   ACTION_NOTIFY_RENAME; ACTION_NOTIFY_LINK; ACTION_NOTIFY_EXCHANGE;
   ACTION_NOTIFY_DELETE; ACTION_REQUEST_SHUTDOWN; ACTION_ERROR].

(** The enumerator carrying an integer value, if any. *)
Definition santa_action_of_value (x : Z) : option santa_action_t :=
  List.find (fun a => santa_action_value a =? x) santa_action_all.

(** The families of the header's comments ([// CHECKBW], [// NOTIFY],
    [// SHUTDOWN], [// ERROR]). *)
Inductive action_family := FAM_UNSET | FAM_CHECKBW | FAM_NOTIFY
                         | FAM_SHUTDOWN | FAM_ERROR.

Definition action_family_of (a : santa_action_t) : action_family :=
  match a with
  | ACTION_UNSET => FAM_UNSET
  | ACTION_REQUEST_CHECKBW | ACTION_RESPOND_CHECKBW_ALLOW
  | ACTION_RESPOND_CHECKBW_DENY => FAM_CHECKBW
  | ACTION_NOTIFY_EXEC | ACTION_NOTIFY_WRITE | ACTION_NOTIFY_RENAME
  | ACTION_NOTIFY_LINK | ACTION_NOTIFY_EXCHANGE
  | ACTION_NOTIFY_DELETE => FAM_NOTIFY
  | ACTION_REQUEST_SHUTDOWN => FAM_SHUTDOWN
  | ACTION_ERROR => FAM_ERROR
  end.

(** [#define CHECKBW_RESPONSE_VALID(x)
      (x == ACTION_RESPOND_CHECKBW_ALLOW || x == ACTION_RESPOND_CHECKBW_DENY)] *)
Definition CHECKBW_RESPONSE_VALID (x : Z) : bool :=
  (x =? santa_action_value ACTION_RESPOND_CHECKBW_ALLOW)
  || (x =? santa_action_value ACTION_RESPOND_CHECKBW_DENY).

(* ------------------------------------------------------------------ *)
(** ** Decimal rendering of a vnode id

    The conversion [%llu] performs on an unsigned 64-bit value: the
    decimal digits, most significant first, as ASCII bytes.  The fuel
    (64, the bit width) bounds the recursion; every step divides by 10. *)

Fixpoint dec_digits (fuel : nat) (n : Z) : list Z :=
  match fuel with
  | O => []
  | S f => if n <? 10 then [n] else dec_digits f (n / 10) ++ [n mod 10]
  end.

(** A byte holding the low eight bits of [x]. *)
Definition byte_of_Z (x : Z) : Byte.byte :=
  match Byte.of_N (Z.to_N (x mod 256)) with
  | Some b => b
  | None => Byte.x00
  end.

Definition vnode_id_str (v : Z) : list Byte.byte :=
  map (fun d => byte_of_Z (48 + d)) (dec_digits 64 v).

(** The NUL-terminated rendering, as written into a [char] buffer. *)
Definition vnode_id_cstr (v : Z) : list Byte.byte :=
  vnode_id_str v ++ [Byte.x00].

(** The value of a digit sequence, most significant first. *)
Definition digits_value (ds : list Z) : Z :=
  fold_left (fun acc d => 10 * acc + d) ds 0.

(* ------------------------------------------------------------------ *)
(** ** [santa_message_t]

    [santa_action_t] is a 4-byte [int]; [uid_t] and [gid_t] are 32-bit
    unsigned, [pid_t] 32-bit signed; [path] and [newpath] are
    [char[MAXPATHLEN]] arrays, kept as their raw bytes (NULs included). *)

Record santa_message_t := mk_santa_message {
  action : santa_action_t;
  vnode_id : Z;
  uid : Z;
  gid : Z;
  pid : Z;
  ppid : Z;
  path : list Byte.byte;
  newpath : list Byte.byte;
}.

(** The values the fields' C types can hold. *)
Definition message_valid (m : santa_message_t) : Prop :=
  0 <= vnode_id m < 2 ^ 64 /\
  0 <= uid m < 2 ^ 32 /\ 0 <= gid m < 2 ^ 32 /\
  - 2 ^ 31 <= pid m < 2 ^ 31 /\ - 2 ^ 31 <= ppid m < 2 ^ 31 /\
  length (path m) = MAXPATHLEN /\ length (newpath m) = MAXPATHLEN.

(** Little-endian encoding of the low [8 * n] bits of [x]. *)
Fixpoint le_enc (n : nat) (x : Z) : list Byte.byte :=
  match n with
  | O => []
  | S n' => byte_of_Z x :: le_enc n' (x / 256)
  end.

Fixpoint le_dec (bs : list Byte.byte) : Z :=
  match bs with
  | [] => 0
  | b :: bs' => Z.of_N (Byte.to_N b) + 256 * le_dec bs'
  end.

(** Two's complement reinterpretation of a 32-bit signed value. *)
Definition to_unsigned32 (x : Z) : Z := x mod 2 ^ 32.
Definition of_unsigned32 (u : Z) : Z := if u <? 2 ^ 31 then u else u - 2 ^ 32.

(** [sizeof(santa_message_t)] under the LP64 ABI: [action] (4), padding
    to align [vnode_id] (4), [vnode_id] (8), [uid], [gid], [pid], [ppid]
    (4 each), [path] and [newpath] ([MAXPATHLEN] each); the total is a
    multiple of 8, so there is no tail padding. *)
Definition santa_message_size : nat :=
  4 + 4 + 8 + 4 + 4 + 4 + 4 + MAXPATHLEN + MAXPATHLEN.

(** The object representation of a message, the bytes copied into the
    data queue.  C leaves the four padding bytes unspecified; they are
    written here as zero, and nothing below depends on their value
    ([decode] skips them). *)
Definition encode (m : santa_message_t) : list Byte.byte :=
  le_enc 4 (to_unsigned32 (santa_action_value (action m))) ++
  le_enc 4 0 ++
  le_enc 8 (vnode_id m) ++
  le_enc 4 (uid m) ++
  le_enc 4 (gid m) ++
  le_enc 4 (to_unsigned32 (pid m)) ++
  le_enc 4 (to_unsigned32 (ppid m)) ++
  path m ++
  newpath m.

Inductive codec_error := MalformedMessage | UnknownAction.

Definition split_at {A} (n : nat) (l : list A) : list A * list A :=
  (take n l, drop n l).

(** Modelled from the spec: [decode] (section 4.1 and 4.2), which the
    header leaves to its readers.  Fails with [MalformedMessage] unless
    the input has the record size, with [UnknownAction] when the tag is
    none of the [santa_action_t] enumerators; the fields are read at the
    offsets of [santa_message_t]. *)
Definition decode (b : list Byte.byte) : codec_error + santa_message_t :=
  if decide (length b = santa_message_size) then
    let '(a, r) := split_at 4 b in
    let '(_, r) := split_at 4 r in
    let '(v, r) := split_at 8 r in
    let '(u, r) := split_at 4 r in
    let '(g, r) := split_at 4 r in
    let '(p, r) := split_at 4 r in
    let '(pp, r) := split_at 4 r in
    let '(pa, np) := split_at MAXPATHLEN r in
    match santa_action_of_value (of_unsigned32 (le_dec a)) with
    | None => inl UnknownAction
    | Some act =>
        inr {| action := act; vnode_id := le_dec v; uid := le_dec u;
               gid := le_dec g; pid := of_unsigned32 (le_dec p);
               ppid := of_unsigned32 (le_dec pp); path := pa;
               newpath := np |}
    end
  else inl MalformedMessage.

(* ------------------------------------------------------------------ *)
(** ** Pending requests and response dispatch

    Modelled from the spec: the decision cache and the pending request
    table of sections 3, 4.3 and 4.4, and the handling of an incoming
    response record (sections 4.4 and 7), which live in the driver and
    not in the header.  Pending requests are keyed by the binary
    identity (the [vnode_id]); each entry lists the callers blocked on
    it. *)

Inductive verdict := Allow | Deny.

Record channel := mk_channel {
  cache : gmap Z verdict;
  pending : gmap Z (list nat);
}.

(** Modelled from the spec: the verdict carried by a response action,
    [None] for anything [CHECKBW_RESPONSE_VALID] rejects. *)
Definition response_verdict (a : santa_action_t) : option verdict :=
  if CHECKBW_RESPONSE_VALID (santa_action_value a) then
    Some (if decide (a = ACTION_RESPOND_CHECKBW_ALLOW) then Allow else Deny)
  else None.

(** Modelled from the spec: a caller [w] asks for identity [i]; a cache
    hit answers at once, a miss registers [w] as pending on [i]. *)
Definition request_check (c : channel) (i : Z) (w : nat)
    : channel * option verdict :=
  match cache c !! i with
  | Some v => (c, Some v)
  | None =>
      let ws := default [] (pending c !! i) in
      (mk_channel (cache c) (<[i := ws ++ [w]]> (pending c)), None)
  end.

(** Modelled from the spec: an incoming record.  A malformed record is
    dropped; an unknown tag is treated as [ACTION_ERROR] and fails the
    request correlated with the record's identity field to the fail-safe
    verdict, writing no cache entry; a response with no pending entry, or
    whose action is not exactly allow or deny, is a protocol violation
    and is ignored; a valid response resolves every caller pending on
    its identity, records the verdict and removes the entry.  The result
    is the new state and the callers resumed with their verdicts. *)
(** The identity field of a raw record: bytes 8..15, where [vnode_id]
    sits in [santa_message_t]. *)
Definition record_identity (b : list Byte.byte) : Z :=
  le_dec (take 8 (drop 8 b)).

Definition dispatch (failsafe : verdict) (c : channel) (b : list Byte.byte)
    : channel * list (nat * verdict) :=
  match decode b with
  | inl MalformedMessage => (c, [])
  | inl UnknownAction =>
      let i := record_identity b in
      match pending c !! i with
      | Some ws =>
          (mk_channel (cache c) (delete i (pending c)),
           map (fun w => (w, failsafe)) ws)
      | None => (c, [])
      end
  | inr m =>
      let i := vnode_id m in
      match pending c !! i with
      | None => (c, [])
      | Some ws =>
          match response_verdict (action m) with
          | None => (c, [])
          | Some v =>
              (mk_channel (<[i := v]> (cache c)) (delete i (pending c)),
               map (fun w => (w, v)) ws)
          end
      end
  end.

(* ------------------------------------------------------------------ *)
(** ** Concrete values *)

Definition zero_path : list Byte.byte := replicate MAXPATHLEN Byte.x00.

Definition sample_response (i : Z) (a : santa_action_t) : santa_message_t :=
  {| action := a; vnode_id := i; uid := 0; gid := 0; pid := 4242;
     ppid := 1; path := zero_path; newpath := zero_path |}.

Example dec_digits_1234 : dec_digits 64 1234 = [1; 2; 3; 4].
Proof. reflexivity. Qed.

Example vnode_id_str_max_length : length (vnode_id_str UINT64_MAX) = 20%nat.
Proof. vm_compute. reflexivity. Qed.

Example encode_sample_length :
  length (encode (sample_response 7 ACTION_RESPOND_CHECKBW_ALLOW)) = 2080%nat.
Proof. vm_compute. reflexivity. Qed.

Example decode_encode_sample :
  decode (encode (sample_response 7 ACTION_RESPOND_CHECKBW_DENY))
  = inr (sample_response 7 ACTION_RESPOND_CHECKBW_DENY).
Proof. vm_compute. reflexivity. Qed.

Example dispatch_sample :
  let c := fst (request_check (mk_channel ∅ ∅) 7 1) in
  snd (dispatch Deny c (encode (sample_response 7 ACTION_RESPOND_CHECKBW_ALLOW)))
  = [(1%nat, Allow)].
Proof. vm_compute. reflexivity. Qed.

(* ------------------------------------------------------------------ *)
(** ** Lemmas on the representation *)

Lemma byte_of_Z_to_N (x : Z) :
  Z.of_N (Byte.to_N (byte_of_Z x)) = x mod 256.
Proof.
  unfold byte_of_Z.
  pose proof (Z.mod_pos_bound x 256 ltac:(lia)) as Hb.
  destruct (Byte.of_N (Z.to_N (x mod 256))) as [b|] eqn:E.
  - apply Byte.to_of_N in E. rewrite E. lia.
  - pose proof (Byte.to_of_N_option_map (Z.to_N (x mod 256))) as H.
    rewrite E in H. cbn in H.
    destruct (N.leb_spec (Z.to_N (x mod 256)) 255); [discriminate | lia].
Qed.

Lemma length_le_enc (n : nat) (x : Z) : length (le_enc n x) = n.
Proof. revert x; induction n; intros x; cbn; [done | by rewrite IHn]. Qed.

Lemma le_dec_le_enc (n : nat) (x : Z) :
  0 <= x < 2 ^ (8 * Z.of_nat n) -> le_dec (le_enc n x) = x.
Proof.
  revert x; induction n as [|n IH]; intros x Hx; cbn [le_enc le_dec].
  - cbn in Hx. lia.
  - rewrite byte_of_Z_to_N, IH.
    + pose proof (Z.div_mod x 256 ltac:(lia)). lia.
    + split; [apply Z.div_pos; lia|].
      apply Z.div_lt_upper_bound; [lia|].
      replace (8 * Z.of_nat (S n)) with (8 + 8 * Z.of_nat n) in Hx by lia.
      rewrite Z.pow_add_r in Hx by lia. lia.
Qed.

Lemma of_unsigned32_roundtrip (x : Z) :
  - 2 ^ 31 <= x < 2 ^ 31 ->
  of_unsigned32 (le_dec (le_enc 4 (to_unsigned32 x))) = x.
Proof.
  intros Hx. unfold to_unsigned32.
  rewrite le_dec_le_enc
    by (pose proof (Z.mod_pos_bound x (2 ^ 32) ltac:(lia)); cbn; lia).
  unfold of_unsigned32.
  destruct (Z.ltb_spec (x mod 2 ^ 32) (2 ^ 31)).
  - destruct (Z.le_gt_cases 0 x).
    + apply Z.mod_small; lia.
    + rewrite Z.mod_eq in * by lia.
      assert (x / 2 ^ 32 = -1) by (symmetry; apply Z.div_unique with (x + 2 ^ 32); lia).
      lia.
  - destruct (Z.le_gt_cases 0 x).
    + rewrite Z.mod_small in * by lia. lia.
    + assert (x / 2 ^ 32 = -1) by (symmetry; apply Z.div_unique with (x + 2 ^ 32); lia).
      rewrite Z.mod_eq by lia. lia.
Qed.

Lemma split_at_app {A} (n : nat) (a b : list A) :
  length a = n -> split_at n (a ++ b) = (a, b).
Proof.
  intros <-. unfold split_at. by rewrite take_app_length, drop_app_length.
Qed.

Lemma santa_action_of_value_value (a : santa_action_t) :
  santa_action_of_value (santa_action_value a) = Some a.
Proof. by destruct a. Qed.

Lemma santa_action_of_value_None (z : Z) :
  (forall a, santa_action_value a <> z) -> santa_action_of_value z = None.
Proof.
  intros Hz. destruct (santa_action_of_value z) as [a|] eqn:E; [|done].
  apply find_some in E as [_ E]. apply Z.eqb_eq in E. by destruct (Hz a).
Qed.

Lemma length_encode (m : santa_message_t) :
  message_valid m -> length (encode m) = santa_message_size.
Proof.
  intros (_ & _ & _ & _ & _ & Hp & Hnp). unfold encode.
  rewrite !length_app, !length_le_enc, Hp, Hnp. done.
Qed.

Lemma decode_length (b : list Byte.byte) (m : santa_message_t) :
  decode b = inr m -> length b = santa_message_size.
Proof.
  unfold decode. destruct (decide (length b = santa_message_size)); [done|].
  discriminate.
Qed.

Lemma decode_encode_valid (m : santa_message_t) :
  message_valid m -> decode (encode m) = inr m.
Proof.
  intros Hv. pose proof (length_encode m Hv) as Hlen.
  destruct Hv as (Hv & Hu & Hg & Hp & Hpp & Hpa & Hnp).
  unfold decode. rewrite decide_True by exact Hlen.
  unfold encode.
  rewrite (split_at_app 4 _ _ (length_le_enc _ _)).
  rewrite (split_at_app 4 _ _ (length_le_enc _ _)).
  rewrite (split_at_app 8 _ _ (length_le_enc _ _)).
  rewrite (split_at_app 4 _ _ (length_le_enc _ _)).
  rewrite (split_at_app 4 _ _ (length_le_enc _ _)).
  rewrite (split_at_app 4 _ _ (length_le_enc _ _)).
  rewrite (split_at_app 4 _ _ (length_le_enc _ _)).
  rewrite (split_at_app MAXPATHLEN _ _ Hpa).
  cbv beta iota.
  assert (Hr : - 2 ^ 31 <= santa_action_value (action m) < 2 ^ 31)
    by (destruct (action m); cbn; lia).
  rewrite (of_unsigned32_roundtrip _ Hr), santa_action_of_value_value.
  rewrite (of_unsigned32_roundtrip _ Hp), (of_unsigned32_roundtrip _ Hpp).
  rewrite !le_dec_le_enc by (cbn; lia).
  by destruct m.
Qed.

Lemma dec_digits_length (k fuel : nat) (n : Z) :
  0 <= n < 10 ^ Z.of_nat (S k) -> (k < fuel)%nat ->
  (length (dec_digits fuel n) <= S k)%nat.
Proof.
  revert fuel n; induction k as [|k IH]; intros fuel n Hn Hf;
    destruct fuel as [|f]; try lia; cbn [dec_digits].
  - destruct (Z.ltb_spec n 10); [cbn; lia|]. cbn in Hn. lia.
  - destruct (Z.ltb_spec n 10); [cbn; lia|].
    rewrite length_app. cbn [length].
    enough (length (dec_digits f (n / 10)) <= S k)%nat by lia.
    apply IH; [|lia]. split; [apply Z.div_pos; lia|].
    apply Z.div_lt_upper_bound; [lia|].
    rewrite Nat2Z.inj_succ, Z.pow_succ_r in Hn by lia. exact (proj2 Hn).
Qed.

Lemma dispatch_valid_response (failsafe : verdict) (c : channel)
    (m : santa_message_t) :
  message_valid m ->
  dispatch failsafe c (encode m) =
    match pending c !! vnode_id m with
    | None => (c, [])
    | Some ws =>
        match response_verdict (action m) with
        | None => (c, [])
        | Some v =>
            (mk_channel (<[vnode_id m := v]> (cache c))
                        (delete (vnode_id m) (pending c)),
             map (fun w => (w, v)) ws)
        end
    end.
Proof. intros Hv. unfold dispatch. by rewrite decode_encode_valid. Qed.

Ltac valid_message :=
  unfold message_valid;
  cbn [sample_response vnode_id uid gid pid ppid path newpath];
  repeat split; try lia; vm_compute; reflexivity.

Definition waiting_on_7 : channel :=
  mk_channel ∅ (<[7 := [1%nat; 2%nat]]> ∅).

(* ------------------------------------------------------------------ *)
(** ** Claims *)

(** C1: for every enumerated action [a], [CHECKBW_RESPONSE_VALID a]
    holds exactly when [a] is [ACTION_RESPOND_CHECKBW_ALLOW] or
    [ACTION_RESPOND_CHECKBW_DENY]; so it holds for respond-allow and fails
    for exec-notify, the request itself, unset, shutdown and error. *)
Theorem CHECKBW_RESPONSE_VALID_iff (a : santa_action_t) :
  CHECKBW_RESPONSE_VALID (santa_action_value a) = true <->
  a = ACTION_RESPOND_CHECKBW_ALLOW \/ a = ACTION_RESPOND_CHECKBW_DENY.
Proof.
  destruct a; cbn; split; intros H;
    solve [ by left | by right | discriminate H | by destruct H as [H|H] ].
Qed.

(** C2: the CHECKBW tags lie in 10..19, the NOTIFY tags in 20..29, the
    SHUTDOWN tag in 90..99 and the ERROR tag is 99; tags of different
    families are different integers. *)
Theorem action_family_ranges :
  (forall a : santa_action_t,
     match action_family_of a with
     | FAM_UNSET => santa_action_value a = 0
     | FAM_CHECKBW => 10 <= santa_action_value a <= 19
     | FAM_NOTIFY => 20 <= santa_action_value a <= 29
     | FAM_SHUTDOWN => 90 <= santa_action_value a <= 99
     | FAM_ERROR => santa_action_value a = 99
     end) /\
  (forall a b : santa_action_t,
     action_family_of a <> action_family_of b ->
     santa_action_value a <> santa_action_value b).
Proof.
  split.
  - intros a; destruct a; cbn; lia.
  - intros a b; destruct a, b; cbn; intros H; first [lia | by destruct H].
Qed.

(** C3: the control operations are, in order, open, allow-binary,
    deny-binary, clear-cache and cache-count, numbered 0 to 4, and
    [kSantaUserClientNMethods] is 5, their number. *)
Theorem SantaDriverMethods_ordinals :
  control_operations =
    [kSantaUserClientOpen; kSantaUserClientAllowBinary;
     kSantaUserClientDenyBinary; kSantaUserClientClearCache;
     kSantaUserClientCacheCount] /\
  map SantaDriverMethods_value control_operations = [0; 1; 2; 3; 4] /\
  SantaDriverMethods_value kSantaUserClientNMethods = 5 /\
  Z.of_nat (length control_operations)
    = SantaDriverMethods_value kSantaUserClientNMethods.
Proof. repeat split; reflexivity. Qed.

(** C4: a message is the record of [santa_message_t] (action, vnode id,
    uid, gid, pid, ppid, [path] and [newpath] of [MAXPATHLEN] bytes each),
    and the representation of every valid message has the same length,
    [sizeof(santa_message_t)] = 2080 bytes. *)
Theorem santa_message_fixed_size (m : santa_message_t) :
  message_valid m ->
  m = mk_santa_message (action m) (vnode_id m) (uid m) (gid m) (pid m)
        (ppid m) (path m) (newpath m) /\
  length (encode m) = santa_message_size /\
  santa_message_size = 2080%nat.
Proof.
  intros Hv. split; [by destruct m|]. split; [by apply length_encode|].
  reflexivity.
Qed.

Lemma santa_message_fixed_size_witness :
  message_valid (sample_response 7 ACTION_NOTIFY_EXEC) /\
  length (encode (sample_response 7 ACTION_NOTIFY_EXEC)) = santa_message_size.
Proof.
  split; [valid_message|].
  destruct (santa_message_fixed_size (sample_response 7 ACTION_NOTIFY_EXEC))
    as (_ & H & _); [valid_message | exact H].
Defined.

(** C5: decoding the representation of a valid message gives the
    message back, whatever bytes (NULs included, up to the full
    [MAXPATHLEN]) its path buffers hold. *)
Theorem decode_encode (m : santa_message_t) :
  message_valid m -> decode (encode m) = inr m.
Proof. apply decode_encode_valid. Qed.

Definition nul_adjacent_path : list Byte.byte :=
  Byte.x2f :: Byte.x00 :: replicate (MAXPATHLEN - 2) Byte.x61.

Definition boundary_message : santa_message_t :=
  {| action := ACTION_NOTIFY_RENAME; vnode_id := UINT64_MAX;
     uid := 2 ^ 32 - 1; gid := 0; pid := - 2 ^ 31; ppid := 2 ^ 31 - 1;
     path := nul_adjacent_path; newpath := replicate MAXPATHLEN Byte.xff |}.

Lemma decode_encode_witness :
  message_valid boundary_message /\
  decode (encode boundary_message) = inr boundary_message.
Proof.
  assert (Hv : message_valid boundary_message)
    by (unfold message_valid, boundary_message, UINT64_MAX; cbn;
        repeat split; try lia; vm_compute; reflexivity).
  split; [exact Hv | exact (decode_encode boundary_message Hv)].
Defined.

(** C6: delivering a valid response for identity [J] leaves the pending
    entry of every other identity [I] as it was, and a response whose
    identity has no pending entry resolves no caller and changes
    nothing. *)
Theorem dispatch_other_identity (failsafe : verdict) (c : channel)
    (m : santa_message_t) :
  message_valid m ->
  (forall I : Z, I <> vnode_id m ->
     pending (fst (dispatch failsafe c (encode m))) !! I = pending c !! I) /\
  (pending c !! vnode_id m = None ->
     dispatch failsafe c (encode m) = (c, [])).
Proof.
  intros Hv. rewrite (dispatch_valid_response failsafe c m Hv). split.
  - intros I HI. destruct (pending c !! vnode_id m); [|done].
    destruct (response_verdict (action m)); [|done].
    cbn. by rewrite lookup_delete_ne.
  - intros ->. done.
Qed.

Lemma dispatch_other_identity_witness :
  message_valid (sample_response 9 ACTION_RESPOND_CHECKBW_ALLOW) /\
  pending (fst (dispatch Deny waiting_on_7
     (encode (sample_response 9 ACTION_RESPOND_CHECKBW_ALLOW)))) !! 7
  = Some [1%nat; 2%nat].
Proof.
  assert (Hv : message_valid (sample_response 9 ACTION_RESPOND_CHECKBW_ALLOW))
    by valid_message.
  split; [exact Hv|].
  destruct (dispatch_other_identity Deny waiting_on_7 _ Hv) as [H _].
  rewrite (H 7 ltac:(cbn; lia)). reflexivity.
Defined.

(** C7: a record of the right size whose tag is none of the twelve
    [santa_action_t] values decodes to [UnknownAction]; dispatching it
    is not a silent drop: when a request is pending on the record's
    identity, that entry is removed and every caller blocked on it is
    resumed with the fail-safe verdict.  It writes no cache entry and
    resumes callers only with the fail-safe verdict. *)
Theorem dispatch_unknown_action (failsafe : verdict) (c : channel) (z : Z)
    (rest : list Byte.byte) :
  - 2 ^ 31 <= z < 2 ^ 31 ->
  (forall a, santa_action_value a <> z) ->
  length rest = (santa_message_size - 4)%nat ->
  decode (le_enc 4 (to_unsigned32 z) ++ rest) = inl UnknownAction /\
  (forall ws : list nat,
     pending c !! record_identity (le_enc 4 (to_unsigned32 z) ++ rest)
       = Some ws ->
     dispatch failsafe c (le_enc 4 (to_unsigned32 z) ++ rest) =
       (mk_channel (cache c)
          (delete (record_identity (le_enc 4 (to_unsigned32 z) ++ rest))
             (pending c)),
        map (fun w => (w, failsafe)) ws)) /\
  cache (fst (dispatch failsafe c (le_enc 4 (to_unsigned32 z) ++ rest)))
    = cache c /\
  Forall (fun r => snd r = failsafe)
    (snd (dispatch failsafe c (le_enc 4 (to_unsigned32 z) ++ rest))).
Proof.
  intros Hz Hnot Hlen.
  assert (Hdec : decode (le_enc 4 (to_unsigned32 z) ++ rest)
                 = inl UnknownAction).
  { unfold decode. rewrite decide_True
      by (rewrite length_app, length_le_enc, Hlen; reflexivity).
    rewrite (split_at_app 4 _ _ (length_le_enc _ _)).
    unfold split_at. cbv beta iota.
    by rewrite (of_unsigned32_roundtrip _ Hz), santa_action_of_value_None. }
  split; [exact Hdec|]. unfold dispatch. rewrite Hdec. cbv zeta.
  split; [intros ws Hws; by rewrite Hws|].
  destruct (pending c !! _) as [ws|]; cbn; split; try done.
  induction ws; constructor; done.
Qed.

Definition unknown_tag_record : list Byte.byte :=
  le_enc 4 (to_unsigned32 5) ++ le_enc 4 0 ++ le_enc 8 7 ++
  replicate (santa_message_size - 16) Byte.x00.

Lemma dispatch_unknown_action_witness :
  length (le_enc 4 0 ++ le_enc 8 7 ++
          replicate (santa_message_size - 16) Byte.x00)
    = (santa_message_size - 4)%nat /\
  pending waiting_on_7 !! record_identity unknown_tag_record
    = Some [1%nat; 2%nat] /\
  snd (dispatch Deny waiting_on_7 unknown_tag_record)
    = [(1%nat, Deny); (2%nat, Deny)] /\
  pending (fst (dispatch Deny waiting_on_7 unknown_tag_record)) !! 7 = None /\
  decode unknown_tag_record = inl UnknownAction.
Proof.
  assert (Hlen : length (le_enc 4 0 ++ le_enc 8 7 ++
                   replicate (santa_message_size - 16) Byte.x00)
                 = (santa_message_size - 4)%nat) by (vm_compute; reflexivity).
  assert (Hp : pending waiting_on_7 !! record_identity unknown_tag_record
                = Some [1%nat; 2%nat]) by (vm_compute; reflexivity).
  destruct (dispatch_unknown_action Deny waiting_on_7 5 _ ltac:(lia)
              ltac:(intros a; destruct a; cbn; lia) Hlen)
    as (Hdec & Hres & _).
  specialize (Hres _ Hp).
  change (le_enc 4 (to_unsigned32 5) ++ le_enc 4 0 ++ le_enc 8 7 ++
          replicate (santa_message_size - 16) Byte.x00)
    with unknown_tag_record in Hdec, Hres.
  split; [exact Hlen|]. split; [exact Hp|].
  rewrite Hres. split; [reflexivity|]. split; [vm_compute; reflexivity|].
  exact Hdec.
Defined.

(** C8: [decode] fails with [MalformedMessage] exactly on inputs whose
    length is not the record size, and succeeds only on inputs of that
    size. *)
Theorem decode_size_check (b : list Byte.byte) :
  (decode b = inl MalformedMessage <-> length b <> santa_message_size) /\
  (forall m, decode b = inr m -> length b = santa_message_size).
Proof.
  split; [|intros m; apply decode_length].
  unfold decode. destruct (decide (length b = santa_message_size)) as [E|E].
  - split; [|done]. unfold split_at. cbv beta iota.
    destruct (santa_action_of_value _); discriminate.
  - done.
Qed.

(** C9: the twelve [santa_action_t] values are pairwise distinct, so the
    value of a tag determines its enumerator and its family;
    [ACTION_UNSET] is 0, and an all-zero record decodes to a message
    whose action is [ACTION_UNSET]. *)
Theorem santa_action_values_distinct :
  (forall a b : santa_action_t,
     santa_action_value a = santa_action_value b <-> a = b) /\
  NoDup (map santa_action_value santa_action_all) /\
  (forall a : santa_action_t,
     option_map action_family_of (santa_action_of_value (santa_action_value a))
     = Some (action_family_of a)) /\
  santa_action_value ACTION_UNSET = 0 /\
  (exists m, decode (replicate santa_message_size Byte.x00) = inr m /\
             action m = ACTION_UNSET).
Proof.
  split; [|split; [|split; [|split]]].
  - intros a b; split; [|by intros ->].
    destruct a, b; cbn; intros H; first [reflexivity | discriminate H].
  - apply (bool_decide_unpack (NoDup (map santa_action_value santa_action_all))).
    vm_compute. reflexivity.
  - intros a. by rewrite santa_action_of_value_value.
  - reflexivity.
  - eexists. split; [vm_compute; reflexivity | reflexivity].
Qed.

(** C10: [MAX_VNODE_ID_STR] is 21, the number of decimal digits of
    [UINT64_MAX] (20) plus the terminator, and the terminated decimal
    rendering of every 64-bit vnode id fits in that many bytes. *)
Theorem vnode_id_str_fits :
  MAX_VNODE_ID_STR = 21 /\
  length (vnode_id_str UINT64_MAX) = 20%nat /\
  Z.of_nat (length (vnode_id_cstr UINT64_MAX)) = MAX_VNODE_ID_STR /\
  (forall v, 0 <= v <= UINT64_MAX ->
     Z.of_nat (length (vnode_id_cstr v)) <= MAX_VNODE_ID_STR).
Proof.
  split; [reflexivity|]. split; [vm_compute; reflexivity|].
  split; [vm_compute; reflexivity|].
  intros v Hv. unfold vnode_id_cstr, vnode_id_str.
  rewrite length_app, length_map.
  assert (H20 : 10 ^ Z.of_nat 20 = 100000000000000000000) by reflexivity.
  assert (Hmax : UINT64_MAX = 18446744073709551615) by reflexivity.
  pose proof (dec_digits_length 19 64 v ltac:(lia) ltac:(lia)).
  unfold MAX_VNODE_ID_STR. cbn [length]. lia.
Qed.

(* ------------------------------------------------------------------ *)
(** ** Further properties of the header *)

Lemma enum_index_last {A} `{EqDecision A} (l : list A) (s : A) :
  s ∉ l -> enum_index (l ++ [s]) s = Z.of_nat (length l).
Proof.
  induction l as [|d ds IH]; intros Hs; cbn.
  - by rewrite decide_True.
  - rewrite decide_False by (intros ->; apply Hs; left).
    rewrite IH by (intros H; apply Hs; by right). lia.
Qed.

Lemma enum_index_app {A} `{EqDecision A} (l k : list A) (e : A) :
  e ∈ l -> enum_index (l ++ k) e = enum_index l e.
Proof.
  induction l as [|d ds IH]; intros He; cbn.
  - by apply elem_of_nil in He.
  - destruct (decide (d = e)); [done|].
    rewrite IH; [done|]. apply elem_of_cons in He as [->|He]; [done|exact He].
Qed.

Lemma drop_le_enc (n k : nat) (x : Z) (rest : list Byte.byte) :
  drop (n + k) (le_enc n x ++ rest) = drop k rest.
Proof. apply drop_app_add'. by rewrite length_le_enc. Qed.

Lemma dec_digits_spec (k fuel : nat) (n : Z) :
  0 <= n < 10 ^ Z.of_nat (S k) -> (k < fuel)%nat ->
  Forall (fun d => 0 <= d <= 9) (dec_digits fuel n) /\
  digits_value (dec_digits fuel n) = n.
Proof.
  revert fuel n; induction k as [|k IH]; intros fuel n Hn Hf;
    destruct fuel as [|f]; try lia; cbn [dec_digits].
  - destruct (Z.ltb_spec n 10); [|cbn in Hn; lia].
    split; [constructor; [lia | constructor] | reflexivity].
  - destruct (Z.ltb_spec n 10).
    { split; [constructor; [lia | constructor] | reflexivity]. }
    assert (Hq : 0 <= n / 10 < 10 ^ Z.of_nat (S k)).
    { split; [apply Z.div_pos; lia|].
      apply Z.div_lt_upper_bound; [lia|].
      rewrite Nat2Z.inj_succ, Z.pow_succ_r in Hn by lia. exact (proj2 Hn). }
    destruct (IH f (n / 10) Hq ltac:(lia)) as [Hd Hv].
    pose proof (Z.mod_pos_bound n 10 ltac:(lia)).
    split.
    + apply Forall_app; split; [exact Hd | constructor; [lia | constructor]].
    + unfold digits_value in *. rewrite fold_left_app, Hv. cbn.
      pose proof (Z.div_mod n 10 ltac:(lia)). lia.
Qed.

Lemma control_operations_eq :
  control_operations =
    [kSantaUserClientOpen; kSantaUserClientAllowBinary;
     kSantaUserClientDenyBinary; kSantaUserClientClearCache;
     kSantaUserClientCacheCount].
Proof. reflexivity. Qed.

Lemma SantaDriverMethods_value_eq (e : SantaDriverMethods) :
  SantaDriverMethods_value e =
    match e with
    | kSantaUserClientOpen => 0
    | kSantaUserClientAllowBinary => 1
    | kSantaUserClientDenyBinary => 2
    | kSantaUserClientClearCache => 3
    | kSantaUserClientCacheCount => 4
    | kSantaUserClientNMethods => 5
    end.
Proof. by destruct e. Qed.

(** X1: applied to any integer, [CHECKBW_RESPONSE_VALID] accepts only the
    values of [ACTION_RESPOND_CHECKBW_ALLOW] and
    [ACTION_RESPOND_CHECKBW_DENY]: no value outside the enumeration
    passes it. *)
Theorem CHECKBW_RESPONSE_VALID_int (x : Z) :
  CHECKBW_RESPONSE_VALID x = true <->
  santa_action_of_value x = Some ACTION_RESPOND_CHECKBW_ALLOW \/
  santa_action_of_value x = Some ACTION_RESPOND_CHECKBW_DENY.
Proof.
  unfold CHECKBW_RESPONSE_VALID. rewrite orb_true_iff, !Z.eqb_eq.
  split.
  - intros [-> | ->]; rewrite santa_action_of_value_value; [by left | by right].
  - intros [H | H]; apply find_some in H as [_ H]; apply Z.eqb_eq in H;
      [left | right]; exact (eq_sym H).
Qed.

(** X2: the family of an action can be read off its value by range:
    CHECKBW exactly 10..19, NOTIFY exactly 20..29, SHUTDOWN exactly
    90..98, ERROR exactly 99, UNSET exactly 0. *)
Theorem action_family_by_range (a : santa_action_t) :
  (action_family_of a = FAM_CHECKBW <-> 10 <= santa_action_value a <= 19) /\
  (action_family_of a = FAM_NOTIFY <-> 20 <= santa_action_value a <= 29) /\
  (action_family_of a = FAM_SHUTDOWN <-> 90 <= santa_action_value a <= 98) /\
  (action_family_of a = FAM_ERROR <-> santa_action_value a = 99) /\
  (action_family_of a = FAM_UNSET <-> santa_action_value a = 0).
Proof.
  destruct a; cbn; repeat split; intros;
    first [reflexivity | lia | discriminate].
Qed.

(** X3: the method ids are pairwise distinct, and every method other
    than [kSantaUserClientNMethods] has an id in
    [0 .. kSantaUserClientNMethods - 1], a valid index into a table of
    [kSantaUserClientNMethods] entries. *)
Theorem SantaDriverMethods_in_bounds :
  (forall e1 e2, SantaDriverMethods_value e1 = SantaDriverMethods_value e2 <->
                 e1 = e2) /\
  (forall e, e <> kSantaUserClientNMethods ->
     0 <= SantaDriverMethods_value e
       < SantaDriverMethods_value kSantaUserClientNMethods).
Proof.
  split.
  - intros e1 e2; split; [|by intros ->]. rewrite !SantaDriverMethods_value_eq.
    destruct e1, e2; intros H; first [reflexivity | discriminate H].
  - intros e He. rewrite !SantaDriverMethods_value_eq.
    destruct e; first [lia | by destruct He].
Qed.

(** X4: under C's implicit numbering, an enumerator declared last that
    appears nowhere before it gets the number of enumerators declared
    before it: the [kSantaUserClientNMethods] idiom counts the methods
    above it, whatever they are. *)
Theorem enum_sentinel_counts {A} `{EqDecision A} (methods : list A) (s : A) :
  s ∉ methods -> enum_index (methods ++ [s]) s = Z.of_nat (length methods).
Proof. apply enum_index_last. Qed.

Lemma enum_sentinel_counts_witness :
  (kSantaUserClientNMethods ∉ control_operations) /\
  enum_index (control_operations ++ [kSantaUserClientNMethods])
    kSantaUserClientNMethods = 5.
Proof.
  assert (H : kSantaUserClientNMethods ∉ control_operations).
  { rewrite control_operations_eq. intros Hin.
    apply list_elem_of_In in Hin. cbn in Hin. intuition discriminate. }
  split; [exact H|]. rewrite (enum_sentinel_counts _ _ H). reflexivity.
Defined.

(** X5: appending enumerators after the existing ones, as the comment
    above [kSantaUserClientNMethods] asks, keeps the number of every
    existing enumerator. *)
Theorem enum_append_stable {A} `{EqDecision A} (methods added : list A)
    (e : A) :
  e ∈ methods -> enum_index (methods ++ added) e = enum_index methods e.
Proof. apply enum_index_app. Qed.

Lemma enum_append_stable_witness :
  (kSantaUserClientDenyBinary ∈ control_operations) /\
  enum_index (control_operations ++ [kSantaUserClientNMethods])
    kSantaUserClientDenyBinary
  = enum_index control_operations kSantaUserClientDenyBinary.
Proof.
  assert (H : kSantaUserClientDenyBinary ∈ control_operations).
  { rewrite control_operations_eq. apply list_elem_of_In. cbn. tauto. }
  split; [exact H | exact (enum_append_stable _ _ _ H)].
Defined.

(** X6: in the representation of a valid message, [action] occupies
    bytes 0..3, [vnode_id] bytes 8..15 (after four padding bytes),
    [path] starts at offset 32 and [newpath] at offset
    [32 + MAXPATHLEN], running to the end of the record. *)
Theorem santa_message_offsets (m : santa_message_t) :
  message_valid m ->
  le_dec (take 4 (encode m)) = to_unsigned32 (santa_action_value (action m)) /\
  le_dec (take 8 (drop 8 (encode m))) = vnode_id m /\
  take MAXPATHLEN (drop 32 (encode m)) = path m /\
  drop (32 + MAXPATHLEN) (encode m) = newpath m.
Proof.
  intros Hv. pose proof Hv as (Hvn & _ & _ & _ & _ & Hpa & _).
  assert (H32 : drop 32 (encode m) = path m ++ newpath m).
  { unfold encode.
    change 32%nat with (4 + (4 + (8 + (4 + (4 + (4 + (4 + 0)))))))%nat.
    rewrite !drop_le_enc. apply drop_0. }
  split; [|split; [|split]].
  - unfold encode. rewrite (take_app_length' _ _ 4) by (by rewrite length_le_enc).
    apply le_dec_le_enc.
    pose proof (Z.mod_pos_bound (santa_action_value (action m)) (2 ^ 32)
                  ltac:(lia)). unfold to_unsigned32. cbn. lia.
  - unfold encode. change 8%nat with (4 + (4 + 0))%nat at 2.
    rewrite !drop_le_enc, drop_0.
    rewrite (take_app_length' _ _ 8) by (by rewrite length_le_enc).
    apply le_dec_le_enc. cbn. lia.
  - rewrite H32. by apply take_app_length'.
  - rewrite <- drop_drop, H32. by apply drop_app_length'.
Qed.

Lemma santa_message_offsets_witness :
  message_valid boundary_message /\
  take MAXPATHLEN (drop 32 (encode boundary_message)) = nul_adjacent_path.
Proof.
  assert (Hv : message_valid boundary_message)
    by (unfold message_valid, boundary_message, UINT64_MAX; cbn;
        repeat split; try lia; vm_compute; reflexivity).
  split; [exact Hv|].
  destruct (santa_message_offsets boundary_message Hv) as (_ & _ & H & _).
  exact H.
Defined.

(** X7: two valid messages with the same representation are equal: no
    information of a message is lost in its bytes. *)
Theorem encode_injective (m1 m2 : santa_message_t) :
  message_valid m1 -> message_valid m2 -> encode m1 = encode m2 -> m1 = m2.
Proof.
  intros H1 H2 He.
  pose proof (decode_encode_valid m1 H1) as D1.
  pose proof (decode_encode_valid m2 H2) as D2.
  rewrite He, D2 in D1. congruence.
Qed.

Lemma encode_injective_witness :
  message_valid (sample_response 3 ACTION_REQUEST_CHECKBW) /\
  sample_response 3 ACTION_REQUEST_CHECKBW
  = sample_response 3 ACTION_REQUEST_CHECKBW.
Proof.
  assert (Hv : message_valid (sample_response 3 ACTION_REQUEST_CHECKBW))
    by valid_message.
  split; [exact Hv|]. exact (encode_injective _ _ Hv Hv eq_refl).
Defined.

(** X8: for every 64-bit vnode id, the decimal rendering sized by
    [MAX_VNODE_ID_STR] consists of ASCII digits only (no NUL inside, so
    the terminator ends it) and reads back as the id. *)
Theorem vnode_id_str_digits (v : Z) :
  0 <= v <= UINT64_MAX ->
  Forall (fun b => (48 <= Byte.to_N b <= 57)%N) (vnode_id_str v) /\
  digits_value (map (fun b => Z.of_N (Byte.to_N b) - 48) (vnode_id_str v)) = v.
Proof.
  intros Hv.
  assert (Hmax : UINT64_MAX = 18446744073709551615) by reflexivity.
  assert (H20 : 10 ^ Z.of_nat 20 = 100000000000000000000) by reflexivity.
  destruct (dec_digits_spec 19 64 v ltac:(lia) ltac:(lia)) as [Hd Hval].
  unfold vnode_id_str. rewrite map_map.
  assert (Hb : forall d, 0 <= d <= 9 ->
            Z.of_N (Byte.to_N (byte_of_Z (48 + d))) = 48 + d).
  { intros d Hd'. rewrite byte_of_Z_to_N. apply Z.mod_small. lia. }
  split.
  - clear Hval. induction Hd as [|d ds Hd1 _ IH]; cbn; constructor; [|exact IH].
    pose proof (Hb d Hd1). lia.
  - transitivity (digits_value (dec_digits 64 v)); [|exact Hval]. f_equal.
    clear Hval. induction Hd as [|d ds Hd1 _ IH]; [done|].
    cbn. rewrite IH, (Hb d Hd1). f_equal. lia.
Qed.

Lemma vnode_id_str_digits_witness :
  0 <= 42 <= UINT64_MAX /\
  digits_value (map (fun b => Z.of_N (Byte.to_N b) - 48) (vnode_id_str 42)) = 42.
Proof.
  assert (H : 0 <= 42 <= UINT64_MAX) by (unfold UINT64_MAX; lia).
  split; [exact H | exact (proj2 (vnode_id_str_digits 42 H))].
Defined.
